(** * diart.models: adapters around pyannote segmentation and embedding models

    A shallow embedding of [src/diart/models.py].  The module defines two
    abstract [nn.Module] interfaces, [SegmentationModel] and
    [EmbeddingModel], and for each a static constructor [from_pyannote]
    that loads a model through [pyannote.audio.pipelines.utils.get_model]
    and wraps it in a locally defined subclass.

    Python objects live in a heap and are referred to by address; method
    calls dispatch on the class recorded in the object, along its method
    resolution order.  The two collaborators that are not part of this
    module, the pyannote hub client and the wrapped torch model, are
    parameters of the development: each is a state transformer on an opaque
    external world that may raise, and every call made to them is logged. *)

From Stdlib Require Import ZArith Floats.PrimFloat.
From stdpp Require Import base option list strings.

Local Open Scope Z_scope.
Local Open Scope string_scope.
Local Open Scope list_scope.

(** ** Exceptions *)

(** The exceptions this module raises itself, and any other exception
    (raised by pyannote, torch or the interpreter) by class name and
    message. *)
Inductive exn : Type :=
| AssertionError (msg : string)
| NotImplementedError
| AttributeError (name : string)
| TypeError (msg : string)
| NameError (name : string)
| OtherError (cls msg : string).

(** ** Values passed to the hub *)

(** [use_auth_token]: [None], [True]/[False], or a token string. *)
Inductive AuthToken : Type :=
| TokNone
| TokBool (b : bool)
| TokStr (s : string).

(** ** Classes and method resolution *)

Inductive cls : Type :=
| SegmentationModel
| PyannoteSegmentationModel
| EmbeddingModel
| PyannoteEmbeddingModel.

Inductive method : Type :=
| m_get_sample_rate
| m_get_duration
| m_call.

(** Method resolution order below [nn.Module]. *)
Definition mro (c : cls) : list cls :=
  match c with
  | SegmentationModel => [SegmentationModel]
  | PyannoteSegmentationModel => [PyannoteSegmentationModel; SegmentationModel]
  | EmbeddingModel => [EmbeddingModel]
  | PyannoteEmbeddingModel => [PyannoteEmbeddingModel; EmbeddingModel]
  end.

(** The methods a class body defines ([__init__] apart). *)
Definition defines (c : cls) (m : method) : bool :=
  match c, m with
  | SegmentationModel, _ => true
  | PyannoteSegmentationModel, _ => true
  | EmbeddingModel, m_call => true
  | PyannoteEmbeddingModel, m_call => true
  | _, _ => false
  end.

(** The class whose body runs for [m] on an instance of [c], if any. *)
Definition resolve (c : cls) (m : method) : option cls :=
  List.find (fun k => defines k m) (mro c).

Definition addr := nat.

(** ** Loaded models *)

(** [model.audio] *)
Record Audio : Type := { sample_rate : Z }.

(** [model.specifications] *)
Record Specifications : Type := { duration : float }.

(** A loaded pyannote model: its metadata and its network. *)
Record Model (Net : Type) : Type :=
  { audio : Audio; specifications : Specifications; net : Net }.

Arguments audio {Net} _.
Arguments specifications {Net} _.
Arguments net {Net} _.

(** ** External collaborators *)

(** What this module is linked against. *)
Class External : Type :=
  { (** [pyannote.PipelineModel]: what the hub accepts as a model *)
    PipelineModel : Type;
    (** [torch.Tensor] *)
    Tensor : Type;
    (** the network of a loaded model *)
    Net : Type;
    (** everything outside this module: the hub, the network, torch *)
    World : Type;
    (** [pyannote.get_model(model, use_auth_token)] *)
    hub_get_model :
      PipelineModel -> AuthToken -> World -> (exn + Model Net) * World;
    (** a call [model(...)] of a loaded model, with its positional and
        keyword arguments *)
    torch_call :
      Model Net -> list Tensor -> list (string * option Tensor) -> World ->
      (exn + Tensor) * World;
    (** whether [import pyannote.audio.pipelines.utils] succeeds *)
    pyannote_importable : bool;
    (** Python's [__debug__]: false when the interpreter runs with [-O],
        which compiles the [assert] statements away *)
    __debug__ : bool }.

Section Models.

Context {E : External}.

(** Keyword arguments of a call of the wrapped model. *)
Definition kwargs : Type := list (string * option Tensor).

(** ** Module initialisation *)

(** try: import ...; _has_pyannote = True
    except ImportError: _has_pyannote = False *)
Definition _has_pyannote : bool :=
  if pyannote_importable then true else false.

(** ** Interpreter state *)

(** An instance of one of the four classes; [ob_model] is its [model]
    attribute, unset until [__init__] assigns it. *)
Record instance : Type :=
  { ob_class : cls; ob_model : option (Model Net) }.

(** A call that left this module. *)
Inductive ext_call : Type :=
| CallGetModel (pm : PipelineModel) (tok : AuthToken)
| CallModel (m : Model Net) (args : list Tensor) (kw : kwargs).

Record state : Type :=
  { heap : list instance; world : World; calls : list ext_call }.

(** ** The monad of Python computations: state and exceptions *)

Definition Py (A : Type) : Type := state -> (exn + A) * state.

Definition ret {A} (a : A) : Py A := fun s => (inr a, s).

Definition raise {A} (e : exn) : Py A := fun s => (inl e, s).

Definition bind {A B} (m : Py A) (k : A -> Py B) : Py B :=
  fun s =>
    match m s with
    | (inr a, s') => k a s'
    | (inl e, s') => (inl e, s')
    end.

#[local] Instance Py_ret : MRet Py := @ret.
#[local] Instance Py_bind : MBind Py := fun A B k m => bind m k.

(** [assert c, msg]: checked when [__debug__], absent from the compiled
    code otherwise. *)
Definition assert_ (c : bool) (msg : string) : Py unit :=
  if __debug__ then
    if c then ret tt else raise (AssertionError msg)
  else ret tt.

(** The module global [pyannote]: bound by the import at the top of the
    module when it succeeds, unbound when it raised [ImportError]. *)
Definition global_pyannote : Py unit :=
  if pyannote_importable then ret tt else raise (NameError "pyannote").

(** Allocation of a fresh instance with no attribute set. *)
Definition new (c : cls) : Py addr :=
  fun s =>
    (inr (length (heap s)),
     {| heap := heap s ++ [{| ob_class := c; ob_model := None |}];
        world := world s; calls := calls s |}).

(** A reference to no object: Python code cannot make one. *)
Definition dangling {A} : Py A :=
  raise (OtherError "SystemError" "dangling reference").

(** [type(self)] *)
Definition type_of (self : addr) : Py cls :=
  fun s =>
    match heap s !! self with
    | Some o => ret (ob_class o) s
    | None => dangling s
    end.

(** [self.model] *)
Definition get_model_attr (self : addr) : Py (Model Net) :=
  fun s =>
    match heap s !! self with
    | Some o =>
        match ob_model o with
        | Some m => ret m s
        | None => raise (AttributeError "model") s
        end
    | None => dangling s
    end.

(** [self.model = m] *)
Definition set_model_attr (self : addr) (m : Model Net) : Py unit :=
  fun s =>
    match heap s !! self with
    | Some o =>
        (inr tt,
         {| heap := <[self := {| ob_class := ob_class o;
                                 ob_model := Some m |}]> (heap s);
            world := world s; calls := calls s |})
    | None => dangling s
    end.

(** [pyannote.get_model(pm, tok)] *)
Definition pyannote_get_model (pm : PipelineModel) (tok : AuthToken)
  : Py (Model Net) :=
  fun s =>
    let '(r, w) := hub_get_model pm tok (world s) in
    (r, {| heap := heap s; world := w;
           calls := calls s ++ [CallGetModel pm tok] |}).

(** [m(...)] with positional arguments [args] and keyword arguments [kw] *)
Definition call_model (m : Model Net) (args : list Tensor) (kw : kwargs)
  : Py Tensor :=
  fun s =>
    let '(r, w) := torch_call m args kw (world s) in
    (r, {| heap := heap s; world := w;
           calls := calls s ++ [CallModel m args kw] |}).

(** [nn.Module.__init__(self)]: touches none of the attributes modelled. *)
Definition nn_Module___init__ (self : addr) : Py unit := ret tt.

(** ** class SegmentationModel *)

Definition SegmentationModel_get_sample_rate (self : addr) : Py Z :=
  raise NotImplementedError.

Definition SegmentationModel_get_duration (self : addr) : Py float :=
  raise NotImplementedError.

Definition SegmentationModel___call__ (self : addr) (waveform : Tensor)
  : Py Tensor :=
  raise NotImplementedError.

(** *** class PyannoteSegmentationModel(SegmentationModel) *)

Definition PyannoteSegmentationModel___init__
    (self : addr) (pyannote_model : PipelineModel)
    (use_auth_token : AuthToken) : Py unit :=
  nn_Module___init__ self ;;
  global_pyannote ;;
  m ← pyannote_get_model pyannote_model use_auth_token ;
  set_model_attr self m.

Definition PyannoteSegmentationModel_get_sample_rate (self : addr) : Py Z :=
  m ← get_model_attr self ;
  mret (sample_rate (audio m)).

Definition PyannoteSegmentationModel_get_duration (self : addr) : Py float :=
  m ← get_model_attr self ;
  mret (duration (specifications m)).

Definition PyannoteSegmentationModel___call__
    (self : addr) (waveform : Tensor) : Py Tensor :=
  m ← get_model_attr self ;
  call_model m [waveform] [].

(** [SegmentationModel.from_pyannote(model, use_auth_token=None)];
    [None] for [use_auth_token] is the argument left out. *)
Definition SegmentationModel_from_pyannote
    (model : PipelineModel) (use_auth_token : option AuthToken)
  : Py addr :=
  let use_auth_token := default TokNone use_auth_token in
  assert_ _has_pyannote "No pyannote.audio installation found" ;;
  self ← new PyannoteSegmentationModel ;
  PyannoteSegmentationModel___init__ self model use_auth_token ;;
  mret self.

(** ** class EmbeddingModel *)

(** [weights] is the optional second argument: [None] when it is left
    out, [Some v] when the caller gives [v] (itself [None] or a tensor). *)
Definition EmbeddingModel___call__
    (self : addr) (waveform : Tensor) (weights : option (option Tensor))
  : Py Tensor :=
  let weights := default None weights in
  raise NotImplementedError.

(** *** class PyannoteEmbeddingModel(EmbeddingModel) *)

Definition PyannoteEmbeddingModel___init__
    (self : addr) (pyannote_model : PipelineModel)
    (use_auth_token : AuthToken) : Py unit :=
  nn_Module___init__ self ;;
  global_pyannote ;;
  m ← pyannote_get_model pyannote_model use_auth_token ;
  set_model_attr self m.

Definition PyannoteEmbeddingModel___call__
    (self : addr) (waveform : Tensor) (weights : option (option Tensor))
  : Py Tensor :=
  let weights := default None weights in
  m ← get_model_attr self ;
  call_model m [waveform] [("weights", weights)].

(** [EmbeddingModel.from_pyannote(model, use_auth_token=None)] *)
Definition EmbeddingModel_from_pyannote
    (model : PipelineModel) (use_auth_token : option AuthToken)
  : Py addr :=
  let use_auth_token := default TokNone use_auth_token in
  assert_ _has_pyannote "No pyannote.audio installation found" ;;
  self ← new PyannoteEmbeddingModel ;
  PyannoteEmbeddingModel___init__ self model use_auth_token ;;
  mret self.

(** ** Method calls on an object *)

(** [self.get_sample_rate()] *)
Definition invoke_get_sample_rate (self : addr) : Py Z :=
  c ← type_of self ;
  match resolve c m_get_sample_rate with
  | Some PyannoteSegmentationModel =>
      PyannoteSegmentationModel_get_sample_rate self
  | Some SegmentationModel => SegmentationModel_get_sample_rate self
  | _ => raise (AttributeError "get_sample_rate")
  end.

(** [self.get_duration()] *)
Definition invoke_get_duration (self : addr) : Py float :=
  c ← type_of self ;
  match resolve c m_get_duration with
  | Some PyannoteSegmentationModel =>
      PyannoteSegmentationModel_get_duration self
  | Some SegmentationModel => SegmentationModel_get_duration self
  | _ => raise (AttributeError "get_duration")
  end.

Definition too_many_arguments : exn :=
  TypeError "__call__() takes 2 positional arguments but 3 were given".

(** [self(waveform)] and [self(waveform, weights)]: [weights] is [None]
    when the call has one argument.  The segmentation classes take no
    second argument. *)
Definition invoke (self : addr) (waveform : Tensor)
    (weights : option (option Tensor)) : Py Tensor :=
  c ← type_of self ;
  match resolve c m_call with
  | Some PyannoteSegmentationModel =>
      match weights with
      | None => PyannoteSegmentationModel___call__ self waveform
      | Some _ => raise too_many_arguments
      end
  | Some SegmentationModel =>
      match weights with
      | None => SegmentationModel___call__ self waveform
      | Some _ => raise too_many_arguments
      end
  | Some PyannoteEmbeddingModel =>
      PyannoteEmbeddingModel___call__ self waveform weights
  | Some EmbeddingModel => EmbeddingModel___call__ self waveform weights
  | None => raise (AttributeError "__call__")
  end.

(** [SegmentationModel()] and [EmbeddingModel()]: the base classes
    inherit the constructor of [nn.Module]. *)
Definition instantiate (c : cls) : Py addr :=
  self ← new c ;
  nn_Module___init__ self ;;
  mret self.

(** ** Notions used by the properties *)

(** The object at [self] is an instance of [c] whose [model] attribute
    holds [m]. *)
Definition wraps (s : state) (self : addr) (c : cls) (m : Model Net) : Prop :=
  heap s !! self = Some {| ob_class := c; ob_model := Some m |}.

(** The exception of the assertion in the two constructors. *)
Definition no_installation : exn :=
  AssertionError "No pyannote.audio installation found".

(** The state a call of the wrapped model leaves: the heap as it was,
    the world as the model left it, one more call in the log. *)
Definition after_call (s : state) (m : Model Net) (w : Tensor) (kw : kwargs)
  : state :=
  {| heap := heap s;
     world := snd (torch_call m [w] kw (world s));
     calls := calls s ++ [CallModel m [w] kw] |}.

(** The state the allocation of an instance of [c] leaves. *)
Definition after_new (s : state) (c : cls) : state :=
  {| heap := heap s ++ [{| ob_class := c; ob_model := None |}];
     world := world s; calls := calls s |}.

(** The state a hub lookup leaves when the object under construction
    ends up with [model] attribute [om]. *)
Definition after_lookup (s : state) (c : cls) (pm : PipelineModel)
    (tok : AuthToken) (om : option (Model Net)) : state :=
  {| heap := heap s ++ [{| ob_class := c; ob_model := om |}];
     world := snd (hub_get_model pm tok (world s));
     calls := calls s ++ [CallGetModel pm tok] |}.

End Models.

(** ** Sessions: what a client of the module can do, step by step *)

Section Sessions.

Context {E : External}.

(** One use of the module: a constructor, the instantiation of one of the
    two base classes, or a method call on an object. *)
Inductive op : Type :=
| OpSegmentationFromPyannote (model : PipelineModel)
    (use_auth_token : option AuthToken)
| OpEmbeddingFromPyannote (model : PipelineModel)
    (use_auth_token : option AuthToken)
| OpInstantiate (c : cls)
| OpGetSampleRate (self : addr)
| OpGetDuration (self : addr)
| OpCall (self : addr) (waveform : Tensor) (weights : option (option Tensor)).

(** The state one use leaves, whether it returned or raised. *)
Definition exec (o : op) (s : state) : state :=
  match o with
  | OpSegmentationFromPyannote model tok =>
      snd (SegmentationModel_from_pyannote model tok s)
  | OpEmbeddingFromPyannote model tok =>
      snd (EmbeddingModel_from_pyannote model tok s)
  | OpInstantiate c => snd (instantiate c s)
  | OpGetSampleRate self => snd (invoke_get_sample_rate self s)
  | OpGetDuration self => snd (invoke_get_duration self s)
  | OpCall self waveform weights => snd (invoke self waveform weights s)
  end.

(** A session: uses one after the other. *)
Definition exec_all (l : list op) (s : state) : state :=
  fold_left (fun s o => exec o s) l s.

Definition is_construction (o : op) : bool :=
  match o with
  | OpSegmentationFromPyannote _ _ | OpEmbeddingFromPyannote _ _ => true
  | _ => false
  end.

Definition is_call (o : op) : bool :=
  match o with
  | OpCall _ _ _ => true
  | _ => false
  end.

Definition is_hub_lookup (c : ext_call) : bool :=
  match c with
  | CallGetModel _ _ => true
  | CallModel _ _ _ => false
  end.

(** The number of uses of a session that satisfy [p]. *)
Definition uses (p : op -> bool) (l : list op) : nat :=
  length (List.filter p l).

(** The number of hub lookups, and of model calls, in a log. *)
Definition hub_lookups (log : list ext_call) : nat :=
  length (List.filter is_hub_lookup log).

Definition model_calls (log : list ext_call) : nat :=
  length (List.filter (fun c => negb (is_hub_lookup c)) log).

(** No object of the heap wraps a model. *)
Definition bare (s : state) : Prop :=
  Forall (fun x => ob_model x = None) (heap s).

End Sessions.

(** ** A small world to run the module in *)

Module Demo.

(** Waveforms and outputs as lists of samples; the world counts the
    calls that reached the hub or torch. *)
Definition segmentation : Model nat :=
  {| audio := {| sample_rate := 16000 |};
     specifications := {| duration := 5%float |};
     net := 3%nat |}.

Definition embedding : Model nat :=
  {| audio := {| sample_rate := 16000 |};
     specifications := {| duration := 2%float |};
     net := 7%nat |}.

(** A hub with one public and one gated model. *)
Definition get_model (pm : string) (tok : AuthToken) (w : nat)
  : (exn + Model nat) * nat :=
  if String.eqb pm "pyannote/segmentation" then (inr segmentation, S w)
  else if String.eqb pm "pyannote/embedding" then
    match tok with
    | TokStr _ | TokBool true => (inr embedding, S w)
    | _ => (inl (OtherError "HTTPError" "401 Unauthorized"), S w)
    end
  else (inl (OtherError "RepositoryNotFoundError" pm), S w).

(** A network that scales its input, weighted sample by sample when
    weights are given, and rejects an empty waveform. *)
Definition output (m : Model nat) (args : list (list Z))
    (kw : list (string * option (list Z))) : exn + list Z :=
  match args with
  | [[]] => inl (OtherError "RuntimeError" "size mismatch")
  | [x] =>
      let y := List.map (Z.mul (Z.of_nat (net m))) x in
      match kw with
      | [(_, Some ws)] =>
          if Nat.eqb (length ws) (length x)
          then inr (List.map (fun p => fst p * snd p) (combine y ws))
          else inl (OtherError "RuntimeError" "size mismatch")
      | _ => inr y
      end
  | _ => inl (TypeError "forward() takes 2 positional arguments")
  end.

Definition call (m : Model nat) (args : list (list Z))
    (kw : list (string * option (list Z))) (w : nat)
  : (exn + list Z) * nat :=
  (output m args kw, S w).

Definition installed : External :=
  {| PipelineModel := string; Tensor := list Z; Net := nat; World := nat;
     hub_get_model := get_model; torch_call := call;
     pyannote_importable := true; __debug__ := true |}.

Definition missing : External :=
  {| PipelineModel := string; Tensor := list Z; Net := nat; World := nat;
     hub_get_model := get_model; torch_call := call;
     pyannote_importable := false; __debug__ := true |}.

Definition boot (E : External) (w : World) : state :=
  {| heap := []; world := w; calls := [] |}.

(** A segmentation adapter at address 0 and an embedding adapter at
    address 1. *)
Definition adapters : @state installed :=
  snd (EmbeddingModel_from_pyannote (E := installed)
         "pyannote/embedding" (Some (TokStr "hf_token"))
         (snd (SegmentationModel_from_pyannote (E := installed)
                 "pyannote/segmentation" None (boot installed 0%nat)))).

(** An instance of each abstract class, at addresses 0 and 1. *)
Definition abstracts : @state installed :=
  snd (instantiate (E := installed) EmbeddingModel
         (snd (instantiate (E := installed) SegmentationModel (boot installed 0%nat)))).

(** The weights of a loaded network stay what they were at loading. *)
Definition weights_of (w : nat) (m : Model nat) : nat := net m.

(** A session on the two adapters: calls that return, calls that raise, a
    failed and a successful construction. *)
Definition session : list (@op installed) :=
  [OpCall (E := installed) 0%nat [1; 2] None;
   OpCall (E := installed) 1%nat [] (Some None);
   OpEmbeddingFromPyannote (E := installed) "pyannote/embedding" None;
   OpGetDuration (E := installed) 1%nat;
   OpSegmentationFromPyannote (E := installed) "pyannote/segmentation"
     (Some (TokBool true));
   OpCall (E := installed) 3%nat [4] (Some (Some [2]));
   OpInstantiate (E := installed) EmbeddingModel].

(** A segmentation adapter alone, at address 0. *)
Definition segmenter : @state installed :=
  snd (SegmentationModel_from_pyannote (E := installed)
         "pyannote/segmentation" None (boot installed 0%nat)).

(** An embedding adapter alone, at address 0. *)
Definition embedder : @state installed :=
  snd (EmbeddingModel_from_pyannote (E := installed)
         "pyannote/embedding" (Some (TokStr "hf_token")) (boot installed 0%nat)).

(** A session where pyannote is missing. *)
Definition session_missing : list (@op missing) :=
  [OpSegmentationFromPyannote (E := missing) "pyannote/segmentation" None;
   OpInstantiate (E := missing) SegmentationModel;
   OpCall (E := missing) 0%nat [1; 2] None;
   OpEmbeddingFromPyannote (E := missing) "pyannote/embedding"
     (Some (TokStr "hf_token"));
   OpGetSampleRate (E := missing) 0%nat;
   OpCall (E := missing) 1%nat [1; 2] (Some None)].


(** A network with dropout left on: what it drops depends on the state of
    the generator, here the count of outside calls so far, not on its
    weights. *)
Definition call_dropout (m : Model nat) (args : list (list Z))
    (kw : list (string * option (list Z))) (w : nat)
  : (exn + list Z) * nat :=
  match args with
  | [x] =>
      (inr (List.map (fun v => if Nat.even w then Z.of_nat (net m) * v else 0) x),
       S w)
  | _ => (inl (TypeError "forward() takes 2 positional arguments"), S w)
  end.

Definition training : External :=
  {| PipelineModel := string; Tensor := list Z; Net := nat; World := nat;
     hub_get_model := get_model; torch_call := call_dropout;
     pyannote_importable := true; __debug__ := true |}.

(** A segmentation adapter around the network with dropout, at address 0. *)
Definition trainee : @state training :=
  snd (SegmentationModel_from_pyannote (E := training)
         "pyannote/segmentation" None (boot training 0%nat)).

(** Tensors as references into a store of buffers, and a network that
    works in place: it scales the buffer of its argument and returns the
    same tensor. *)
Definition call_inplace (m : Model nat) (args : list nat)
    (kw : list (string * option nat)) (w : list (list Z))
  : (exn + nat) * list (list Z) :=
  match args with
  | [t] =>
      match w !! t with
      | Some x => (inr t, <[t := List.map (Z.mul (Z.of_nat (net m))) x]> w)
      | None => (inl (OtherError "RuntimeError" "no such tensor"), w)
      end
  | _ => (inl (TypeError "forward() takes 2 positional arguments"), w)
  end.

Definition get_model_inplace (pm : string) (tok : AuthToken)
    (w : list (list Z)) : (exn + Model nat) * list (list Z) :=
  (fst (get_model pm tok 0%nat), w).

Definition inplace : External :=
  {| PipelineModel := string; Tensor := nat; Net := nat;
     World := list (list Z);
     hub_get_model := get_model_inplace; torch_call := call_inplace;
     pyannote_importable := true; __debug__ := true |}.

(** A segmentation adapter around the in-place network, at address 0, and
    one tensor, number 0, holding the samples 1 and 2. *)
Definition normalizer : @state inplace :=
  snd (SegmentationModel_from_pyannote (E := inplace)
         "pyannote/segmentation" None (boot inplace [[1; 2]])).

(** The buffer of a tensor. *)
Definition buffer (w : list (list Z)) (t : nat) : option (list Z) := w !! t.

End Demo.

(** * Properties *)

Section Properties.

Context {E : External}.

Implicit Types (s t : state) (self : addr) (o : instance).
Implicit Types (m : Model Net) (w : Tensor) (e : exn).

(** ** Running the primitives *)

Ltac py_unfold :=
  unfold mbind, mret, Py_bind, Py_ret, bind, ret, raise, dangling,
    assert_, global_pyannote, nn_Module___init__ in *.

Lemma heap_snoc_last (l : list instance) x : (l ++ [x]) !! length l = Some x.
Proof. by apply list_lookup_middle. Qed.

Lemma heap_snoc_set (l : list instance) x y :
  <[length l := y]> (l ++ [x]) = l ++ [y].
Proof. rewrite insert_app_r_alt; [|lia]. by rewrite Nat.sub_diag. Qed.

Lemma call_model_run m w kw s :
  call_model m [w] kw s = (fst (torch_call m [w] kw (world s)), after_call s m w kw).
Proof.
  unfold call_model, after_call.
  by destruct (torch_call m [w] kw (world s)).
Qed.

(** ** Running the constructors *)

Lemma SegmentationModel_from_pyannote_run pm tok s :
  SegmentationModel_from_pyannote pm tok s =
  if _has_pyannote then
    match fst (hub_get_model pm (default TokNone tok) (world s)) with
    | inr m =>
        (inr (length (heap s)),
         after_lookup s PyannoteSegmentationModel pm (default TokNone tok) (Some m))
    | inl e =>
        (inl e,
         after_lookup s PyannoteSegmentationModel pm (default TokNone tok) None)
    end
  else if __debug__ then (inl no_installation, s)
  else (inl (NameError "pyannote"), after_new s PyannoteSegmentationModel).
Proof.
  unfold SegmentationModel_from_pyannote, PyannoteSegmentationModel___init__,
    after_lookup, after_new, no_installation, _has_pyannote.
  py_unfold.
  destruct pyannote_importable, __debug__; try done.
  all: unfold new, pyannote_get_model, set_model_attr; cbn.
  all: destruct (hub_get_model pm (default TokNone tok) (world s))
         as [[e|m] wd]; cbn.
  all: try done.
  all: rewrite heap_snoc_last; cbn; by rewrite heap_snoc_set.
Qed.

Lemma EmbeddingModel_from_pyannote_run pm tok s :
  EmbeddingModel_from_pyannote pm tok s =
  if _has_pyannote then
    match fst (hub_get_model pm (default TokNone tok) (world s)) with
    | inr m =>
        (inr (length (heap s)),
         after_lookup s PyannoteEmbeddingModel pm (default TokNone tok) (Some m))
    | inl e =>
        (inl e,
         after_lookup s PyannoteEmbeddingModel pm (default TokNone tok) None)
    end
  else if __debug__ then (inl no_installation, s)
  else (inl (NameError "pyannote"), after_new s PyannoteEmbeddingModel).
Proof.
  unfold EmbeddingModel_from_pyannote, PyannoteEmbeddingModel___init__,
    after_lookup, after_new, no_installation, _has_pyannote.
  py_unfold.
  destruct pyannote_importable, __debug__; try done.
  all: unfold new, pyannote_get_model, set_model_attr; cbn.
  all: destruct (hub_get_model pm (default TokNone tok) (world s))
         as [[e|m] wd]; cbn.
  all: try done.
  all: rewrite heap_snoc_last; cbn; by rewrite heap_snoc_set.
Qed.

(** What a successful [SegmentationModel.from_pyannote] leaves. *)
Lemma SegmentationModel_from_pyannote_ok pm tok s self s' :
  SegmentationModel_from_pyannote pm tok s = (inr self, s') ->
  exists m,
    fst (hub_get_model pm (default TokNone tok) (world s)) = inr m /\
    wraps s' self PyannoteSegmentationModel m.
Proof.
  rewrite SegmentationModel_from_pyannote_run.
  destruct _has_pyannote; [|by destruct __debug__].
  destruct (fst (hub_get_model pm (default TokNone tok) (world s)))
    as [e|m] eqn:Hhub; [done|].
  intros [= <- <-]. exists m. split; [done|].
  apply heap_snoc_last.
Qed.

(** ** Running the method calls *)

Lemma invoke_get_sample_rate_run s self :
  invoke_get_sample_rate self s =
  match heap s !! self with
  | None => dangling s
  | Some o =>
      match ob_class o with
      | SegmentationModel => (inl NotImplementedError, s)
      | PyannoteSegmentationModel =>
          match ob_model o with
          | Some m => (inr (sample_rate (audio m)), s)
          | None => (inl (AttributeError "model"), s)
          end
      | _ => (inl (AttributeError "get_sample_rate"), s)
      end
  end.
Proof.
  unfold invoke_get_sample_rate, type_of,
    PyannoteSegmentationModel_get_sample_rate, get_model_attr.
  py_unfold.
  destruct (heap s !! self) as [o|] eqn:Ho; [|done].
  destruct o as [[] [m|]]; cbn; rewrite ?Ho; done.
Qed.

Lemma invoke_get_duration_run s self :
  invoke_get_duration self s =
  match heap s !! self with
  | None => dangling s
  | Some o =>
      match ob_class o with
      | SegmentationModel => (inl NotImplementedError, s)
      | PyannoteSegmentationModel =>
          match ob_model o with
          | Some m => (inr (duration (specifications m)), s)
          | None => (inl (AttributeError "model"), s)
          end
      | _ => (inl (AttributeError "get_duration"), s)
      end
  end.
Proof.
  unfold invoke_get_duration, type_of,
    PyannoteSegmentationModel_get_duration, get_model_attr.
  py_unfold.
  destruct (heap s !! self) as [o|] eqn:Ho; [|done].
  destruct o as [[] [m|]]; cbn; rewrite ?Ho; done.
Qed.

Lemma invoke_run s self w weights :
  invoke self w weights s =
  match heap s !! self with
  | None => dangling s
  | Some o =>
      match ob_class o, weights with
      | SegmentationModel, None => (inl NotImplementedError, s)
      | PyannoteSegmentationModel, None =>
          match ob_model o with
          | Some m => call_model m [w] [] s
          | None => (inl (AttributeError "model"), s)
          end
      | (SegmentationModel | PyannoteSegmentationModel), Some _ =>
          (inl too_many_arguments, s)
      | EmbeddingModel, _ => (inl NotImplementedError, s)
      | PyannoteEmbeddingModel, _ =>
          match ob_model o with
          | Some m => call_model m [w] [("weights", default None weights)] s
          | None => (inl (AttributeError "model"), s)
          end
      end
  end.
Proof.
  unfold invoke, type_of, PyannoteSegmentationModel___call__,
    PyannoteEmbeddingModel___call__, SegmentationModel___call__,
    EmbeddingModel___call__, get_model_attr.
  py_unfold.
  destruct (heap s !! self) as [o|] eqn:Ho; [|done].
  destruct o as [[] [m|]], weights; cbn; rewrite ?Ho; done.
Qed.

(** ** The hub-backed constructors *)

(** C1: on an adapter returned by [SegmentationModel.from_pyannote],
    [get_sample_rate()] returns the [audio.sample_rate] field and
    [get_duration()] the [specifications.duration] field of the model the
    hub returned, in every state in which the adapter is as constructed;
    neither call changes the state. *)
Theorem from_pyannote_getters_read_metadata pm tok s self s' :
  SegmentationModel_from_pyannote pm tok s = (inr self, s') ->
  exists m,
    fst (hub_get_model pm (default TokNone tok) (world s)) = inr m /\
    forall t, heap t !! self = heap s' !! self ->
      invoke_get_sample_rate self t = (inr (sample_rate (audio m)), t) /\
      invoke_get_duration self t = (inr (duration (specifications m)), t).
Proof.
  intros Hnew.
  destruct (SegmentationModel_from_pyannote_ok _ _ _ _ _ Hnew) as (m & Hhub & Hm).
  exists m. split; [done|].
  intros t Ht. unfold wraps in Hm. rewrite Hm in Ht.
  rewrite invoke_get_sample_rate_run, invoke_get_duration_run, Ht.
  done.
Qed.


(** C4: when the hub lookup raises [e], both constructors raise [e] and
    return no address: the caller gets no adapter.  The object that was
    being initialised stays behind in the heap with no [model] attribute
    and nothing refers to it; the objects already there are as they were. *)
Theorem from_pyannote_hub_failure pm tok s e :
  _has_pyannote = true ->
  fst (hub_get_model pm (default TokNone tok) (world s)) = inl e ->
  SegmentationModel_from_pyannote pm tok s =
    (inl e, after_lookup s PyannoteSegmentationModel pm (default TokNone tok) None) /\
  EmbeddingModel_from_pyannote pm tok s =
    (inl e, after_lookup s PyannoteEmbeddingModel pm (default TokNone tok) None).
Proof.
  intros Hhas Hhub.
  rewrite SegmentationModel_from_pyannote_run, EmbeddingModel_from_pyannote_run.
  by rewrite Hhas, Hhub.
Qed.

(** C8: with pyannote installed, each constructor makes one call that
    leaves the module, [get_model] with the model and the credential it
    was given ([None] when the argument is left out), whatever the
    credential is; the world it leaves is the one that call left. *)
Theorem from_pyannote_passes_token pm tok s :
  _has_pyannote = true ->
  (calls (snd (SegmentationModel_from_pyannote pm tok s)) =
     calls s ++ [CallGetModel pm (default TokNone tok)] /\
   world (snd (SegmentationModel_from_pyannote pm tok s)) =
     snd (hub_get_model pm (default TokNone tok) (world s))) /\
  (calls (snd (EmbeddingModel_from_pyannote pm tok s)) =
     calls s ++ [CallGetModel pm (default TokNone tok)] /\
   world (snd (EmbeddingModel_from_pyannote pm tok s)) =
     snd (hub_get_model pm (default TokNone tok) (world s))).
Proof.
  intros Hhas.
  rewrite SegmentationModel_from_pyannote_run, EmbeddingModel_from_pyannote_run.
  rewrite Hhas.
  by destruct (fst (hub_get_model pm (default TokNone tok) (world s))).
Qed.

(** ** The abstract classes *)

(** C3: on an instance of [SegmentationModel] itself, [get_sample_rate()],
    [get_duration()] and a call with a waveform raise
    [NotImplementedError]; on an instance of [EmbeddingModel] itself a
    call raises it, with or without weights.  The state is unchanged. *)
Theorem abstract_methods_not_implemented s self o w :
  heap s !! self = Some o ->
  (ob_class o = SegmentationModel ->
     invoke_get_sample_rate self s = (inl NotImplementedError, s) /\
     invoke_get_duration self s = (inl NotImplementedError, s) /\
     invoke self w None s = (inl NotImplementedError, s)) /\
  (ob_class o = EmbeddingModel ->
     forall weights, invoke self w weights s = (inl NotImplementedError, s)).
Proof.
  intros Ho.
  rewrite invoke_get_sample_rate_run, invoke_get_duration_run, invoke_run, Ho.
  split.
  - by intros ->.
  - intros Hc weights. rewrite invoke_run, Ho, Hc. by destruct weights.
Qed.


(** ** Calls of the wrapped model *)

(** C7: on a constructed adapter, when the wrapped model raises [e] the
    call raises the same [e]; the model was called once, with the
    waveform (and for an embedding adapter the weights), and the state is
    the one that call left. *)
Theorem forward_surfaces_model_errors s self o m w weights e :
  heap s !! self = Some o ->
  ob_model o = Some m ->
  (ob_class o = PyannoteSegmentationModel ->
     fst (torch_call m [w] [] (world s)) = inl e ->
     invoke self w None s = (inl e, after_call s m w [])) /\
  (ob_class o = PyannoteEmbeddingModel ->
     fst (torch_call m [w] [("weights", default None weights)] (world s)) = inl e ->
     invoke self w weights s =
       (inl e, after_call s m w [("weights", default None weights)])).
Proof.
  intros Ho Hm.
  split; intros Hc Hraise.
  - by rewrite invoke_run, Ho, Hc, Hm, call_model_run, Hraise.
  - rewrite invoke_run, Ho, Hc, Hm, call_model_run, Hraise. by destruct weights.
Qed.

(** C9: on an embedding adapter, a call without weights and a call with
    weights [None] are the same computation: same result, same final
    state, same call of the wrapped model in the log. *)
Theorem embedding_weights_default s self o w :
  heap s !! self = Some o ->
  ob_class o = EmbeddingModel \/ ob_class o = PyannoteEmbeddingModel ->
  invoke self w None s = invoke self w (Some None) s.
Proof.
  intros Ho [Hc|Hc]; by rewrite !invoke_run, Ho, Hc.
Qed.

(** C5 (amended): a call of a segmentation adapter reads the [model]
    attribute and runs that model on the waveform, nothing else, and leaves
    the heap as it was.  So two calls with the same waveform, in states in
    which the adapter is the same object, have the same outcome exactly
    when the wrapped model answers the same in the two worlds (on the
    abstract class both raise); in particular when the wrapped model's
    result is a function of its weights and arguments and the weights are
    unchanged. *)
Theorem segmentation_forward_deterministic s t self o w :
  heap s !! self = Some o ->
  heap t !! self = Some o ->
  ob_class o = SegmentationModel \/ ob_class o = PyannoteSegmentationModel ->
  heap (snd (invoke self w None s)) = heap s /\
  (ob_class o = SegmentationModel ->
     fst (invoke self w None s) = fst (invoke self w None t)) /\
  (forall m,
      ob_class o = PyannoteSegmentationModel -> ob_model o = Some m ->
      (fst (invoke self w None s) = fst (invoke self w None t) <->
       fst (torch_call m [w] [] (world s))
         = fst (torch_call m [w] [] (world t)))) /\
  (forall (W : Type) (weights_of : World -> Model Net -> W),
      (forall m args kw (wd wd' : World),
          weights_of wd m = weights_of wd' m ->
          fst (torch_call m args kw wd) = fst (torch_call m args kw wd')) ->
      (forall m, ob_model o = Some m ->
                 weights_of (world s) m = weights_of (world t) m) ->
      fst (invoke self w None s) = fst (invoke self w None t)).
Proof.
  intros Hs Ht Hc.
  rewrite !invoke_run, Hs, Ht.
  split; [|split; [|split]].
  - destruct Hc as [-> | ->]; [done|].
    destruct (ob_model o); [|done]. by rewrite call_model_run.
  - by intros ->.
  - intros m -> ->. by rewrite !call_model_run.
  - intros W weights_of Hdet Hw.
    destruct Hc as [-> | ->]; [done|].
    destruct (ob_model o) as [m|] eqn:Hm; [|done].
    rewrite !call_model_run. cbn. by apply Hdet, Hw.
Qed.

(** C6 (amended): no operation assigns an attribute: the two getters leave the whole
    state as it was, and a call leaves the heap as it was, so the [model]
    attribute of every adapter is the one set at construction.  A call
    changes the world only by the one call of the wrapped model, if it
    gets that far; so when the wrapped model leaves the contents of its
    arguments alone, so does the adapter. *)
Theorem operations_preserve_adapter s self w weights :
  snd (invoke_get_sample_rate self s) = s /\
  snd (invoke_get_duration self s) = s /\
  heap (snd (invoke self w weights s)) = heap s /\
  (snd (invoke self w weights s) = s \/
   exists m kw, snd (invoke self w weights s) = after_call s m w kw) /\
  (forall (D : Type) (content : World -> Tensor -> D),
      (forall m args kw wd x,
          x ∈ args \/ (exists k, (k, Some x) ∈ kw) ->
          content (snd (torch_call m args kw wd)) x = content wd x) ->
      content (world (snd (invoke self w weights s))) w = content (world s) w /\
      forall v, weights = Some (Some v) ->
        content (world (snd (invoke self w weights s))) v = content (world s) v).
Proof.
  rewrite invoke_get_sample_rate_run, invoke_get_duration_run, invoke_run.
  unfold dangling, raise.
  destruct (heap s !! self) as [[c om]|]; cbn.
  2: { repeat split; auto. }
  split; [by destruct c, om|]. split; [by destruct c, om|].
  assert (Hcase :
    forall kw m, snd (call_model m [w] kw s) = after_call s m w kw).
  { intros kw m. by rewrite call_model_run. }
  destruct c, om as [m|], weights as [[v|]|]; cbn; rewrite ?Hcase;
    (split; [done|]); (split; [by eauto|]);
    intros D content Hpure; cbn;
    (split; [|intros v' [= <-] || intros v' [=]]);
    try done; apply Hpure; first [ by left; left | right; eexists; by left ].
Qed.

End Properties.

(** * Runs on the small world *)

Example demo_hub_lookups :
  calls Demo.adapters
    = [CallGetModel (E := Demo.installed) "pyannote/segmentation" TokNone;
       CallGetModel (E := Demo.installed) "pyannote/embedding" (TokStr "hf_token")].
Proof. reflexivity. Qed.

Example demo_segmentation_call :
  fst (invoke (E := Demo.installed) 0%nat [1; 2] None Demo.adapters)
    = inr [3; 6].
Proof. reflexivity. Qed.

Example demo_segmentation_takes_no_weights :
  invoke (E := Demo.installed) 0%nat [1; 2] (Some None) Demo.adapters
    = (inl too_many_arguments, Demo.adapters).
Proof. reflexivity. Qed.

Example demo_embedding_weighted_call :
  fst (invoke (E := Demo.installed) 1%nat [1; 2] (Some (Some [1; 0])) Demo.adapters)
    = inr [7; 0].
Proof. reflexivity. Qed.

Example demo_embedding_has_no_sample_rate :
  invoke_get_sample_rate (E := Demo.installed) 1%nat Demo.adapters
    = (inl (AttributeError "get_sample_rate"), Demo.adapters).
Proof. reflexivity. Qed.

Example demo_unknown_model :
  fst (SegmentationModel_from_pyannote (E := Demo.installed)
         "pyannote/nothing" None (Demo.boot Demo.installed 0%nat))
    = inl (OtherError "RepositoryNotFoundError" "pyannote/nothing").
Proof. reflexivity. Qed.

(** * The properties on the small world *)

Lemma from_pyannote_getters_read_metadata_witness :
  invoke_get_sample_rate (E := Demo.installed) 0%nat Demo.adapters
    = (inr 16000, Demo.adapters) /\
  invoke_get_duration (E := Demo.installed) 0%nat Demo.adapters
    = (inr 5%float, Demo.adapters).
Proof.
  destruct (from_pyannote_getters_read_metadata (E := Demo.installed)
              "pyannote/segmentation" None (Demo.boot Demo.installed 0%nat) 0%nat _ eq_refl)
    as (m & Hm & Hget).
  vm_compute in Hm. injection Hm as <-.
  apply (Hget Demo.adapters). reflexivity.
Defined.


Lemma from_pyannote_hub_failure_witness :
  SegmentationModel_from_pyannote (E := Demo.installed)
      "pyannote/embedding" None (Demo.boot Demo.installed 0%nat)
    = (inl (OtherError "HTTPError" "401 Unauthorized"),
       after_lookup (E := Demo.installed) (Demo.boot Demo.installed 0%nat)
         PyannoteSegmentationModel "pyannote/embedding" TokNone None) /\
  EmbeddingModel_from_pyannote (E := Demo.installed)
      "pyannote/embedding" None (Demo.boot Demo.installed 0%nat)
    = (inl (OtherError "HTTPError" "401 Unauthorized"),
       after_lookup (E := Demo.installed) (Demo.boot Demo.installed 0%nat)
         PyannoteEmbeddingModel "pyannote/embedding" TokNone None).
Proof.
  apply (from_pyannote_hub_failure (E := Demo.installed)
           "pyannote/embedding" None (Demo.boot Demo.installed 0%nat));
    reflexivity.
Defined.

Lemma from_pyannote_passes_token_witness :
  (calls (snd (SegmentationModel_from_pyannote (E := Demo.installed)
                 "pyannote/embedding" (Some (TokBool false))
                 (Demo.boot Demo.installed 0%nat)))
     = [CallGetModel (E := Demo.installed) "pyannote/embedding" (TokBool false)] /\
   world (snd (SegmentationModel_from_pyannote (E := Demo.installed)
                 "pyannote/embedding" (Some (TokBool false))
                 (Demo.boot Demo.installed 0%nat))) = 1%nat) /\
  (calls (snd (EmbeddingModel_from_pyannote (E := Demo.installed)
                 "pyannote/embedding" (Some (TokBool false))
                 (Demo.boot Demo.installed 0%nat)))
     = [CallGetModel (E := Demo.installed) "pyannote/embedding" (TokBool false)] /\
   world (snd (EmbeddingModel_from_pyannote (E := Demo.installed)
                 "pyannote/embedding" (Some (TokBool false))
                 (Demo.boot Demo.installed 0%nat))) = 1%nat).
Proof.
  apply (from_pyannote_passes_token (E := Demo.installed)
           "pyannote/embedding" (Some (TokBool false))
           (Demo.boot Demo.installed 0%nat)).
  reflexivity.
Defined.

Lemma abstract_methods_not_implemented_witness :
  (invoke_get_sample_rate (E := Demo.installed) 0%nat Demo.abstracts
     = (inl NotImplementedError, Demo.abstracts) /\
   invoke_get_duration (E := Demo.installed) 0%nat Demo.abstracts
     = (inl NotImplementedError, Demo.abstracts) /\
   invoke (E := Demo.installed) 0%nat [1; 2] None Demo.abstracts
     = (inl NotImplementedError, Demo.abstracts)) /\
  invoke (E := Demo.installed) 1%nat [1; 2] (Some (Some [1; 1])) Demo.abstracts
    = (inl NotImplementedError, Demo.abstracts).
Proof.
  split.
  - apply (abstract_methods_not_implemented (E := Demo.installed)
             Demo.abstracts 0%nat _ [1; 2] eq_refl).
    reflexivity.
  - apply (abstract_methods_not_implemented (E := Demo.installed)
             Demo.abstracts 1%nat _ [1; 2] eq_refl).
    reflexivity.
Defined.


Lemma forward_surfaces_model_errors_witness :
  invoke (E := Demo.installed) 0%nat [] None Demo.adapters
    = (inl (OtherError "RuntimeError" "size mismatch"),
       after_call (E := Demo.installed) Demo.adapters Demo.segmentation [] []) /\
  invoke (E := Demo.installed) 1%nat [1; 2] (Some (Some [1])) Demo.adapters
    = (inl (OtherError "RuntimeError" "size mismatch"),
       after_call (E := Demo.installed) Demo.adapters Demo.embedding [1; 2]
         [("weights", Some [1])]).
Proof.
  split.
  - apply (forward_surfaces_model_errors (E := Demo.installed)
             Demo.adapters 0%nat _ Demo.segmentation [] None _ eq_refl eq_refl);
      reflexivity.
  - apply (forward_surfaces_model_errors (E := Demo.installed)
             Demo.adapters 1%nat _ Demo.embedding [1; 2] (Some (Some [1])) _
             eq_refl eq_refl);
      reflexivity.
Defined.

Lemma embedding_weights_default_witness :
  invoke (E := Demo.installed) 1%nat [1; 2] None Demo.adapters
    = invoke (E := Demo.installed) 1%nat [1; 2] (Some None) Demo.adapters.
Proof.
  apply (embedding_weights_default (E := Demo.installed)
           Demo.adapters 1%nat _ [1; 2] eq_refl).
  right. reflexivity.
Defined.

Lemma segmentation_forward_deterministic_witness :
  fst (invoke (E := Demo.installed) 0%nat [1; 2] None Demo.adapters)
    = fst (invoke (E := Demo.installed) 0%nat [1; 2] None
             (snd (invoke (E := Demo.installed) 0%nat [1; 2] None Demo.adapters))) /\
  heap (snd (invoke (E := Demo.installed) 0%nat [1; 2] None Demo.adapters))
    = heap Demo.adapters.
Proof.
  destruct (segmentation_forward_deterministic (E := Demo.installed)
              Demo.adapters
              (snd (invoke (E := Demo.installed) 0%nat [1; 2] None Demo.adapters))
              0%nat
              (Build_instance (E := Demo.installed)
                 PyannoteSegmentationModel (Some Demo.segmentation))
              [1; 2] eq_refl eq_refl (or_intror eq_refl))
    as (Hheap & _ & Hsame & _).
  split; [|exact Hheap].
  apply (Hsame Demo.segmentation eq_refl eq_refl). reflexivity.
Defined.

(** * Counterexamples *)


Lemma segmentation_forward_deterministic_counterexample :
  heap (snd (invoke (E := Demo.training) 0%nat [1; 2] None Demo.trainee))
    = heap Demo.trainee /\
  fst (invoke (E := Demo.training) 0%nat [1; 2] None Demo.trainee)
    = inr [0; 0] /\
  fst (invoke (E := Demo.training) 0%nat [1; 2] None
         (snd (invoke (E := Demo.training) 0%nat [1; 2] None Demo.trainee)))
    = inr [3; 6] /\
  fst (invoke (E := Demo.training) 0%nat [1; 2] None Demo.trainee)
    <> fst (invoke (E := Demo.training) 0%nat [1; 2] None
              (snd (invoke (E := Demo.training) 0%nat [1; 2] None Demo.trainee))).
Proof. repeat split. discriminate. Qed.

Lemma operations_preserve_adapter_counterexample :
  Demo.buffer (world Demo.normalizer) 0%nat = Some [1; 2] /\
  Demo.buffer
    (world (snd (invoke (E := Demo.inplace) 0%nat 0%nat None Demo.normalizer)))
    0%nat = Some [3; 6] /\
  Demo.buffer
    (world (snd (invoke (E := Demo.inplace) 0%nat 0%nat None Demo.normalizer)))
    0%nat <> Demo.buffer (world Demo.normalizer) 0%nat.
Proof. repeat split. discriminate. Qed.

(** * Properties of sessions *)

Section SessionProperties.

Context {E : External}.

Local Open Scope nat_scope.

Implicit Types (s t : state) (self : addr) (o : op) (l : list op).
Implicit Types (m : Model Net) (w : Tensor) (log : list ext_call).

(** ** One use *)

Lemma instantiate_run c s :
  instantiate c s =
  (inr (length (heap s)),
   {| heap := heap s ++ [{| ob_class := c; ob_model := None |}];
      world := world s; calls := calls s |}).
Proof. reflexivity. Qed.

(** What a successful [EmbeddingModel.from_pyannote] leaves. *)
Lemma EmbeddingModel_from_pyannote_ok pm tok s self s' :
  EmbeddingModel_from_pyannote pm tok s = (inr self, s') ->
  exists m,
    fst (hub_get_model pm (default TokNone tok) (world s)) = inr m /\
    wraps s' self PyannoteEmbeddingModel m.
Proof.
  rewrite EmbeddingModel_from_pyannote_run.
  destruct _has_pyannote; [|by destruct __debug__].
  destruct (fst (hub_get_model pm (default TokNone tok) (world s)))
    as [e|m] eqn:Hhub; [done|].
  intros [= <- <-]. exists m. split; [done|].
  apply heap_snoc_last.
Qed.

(** A successful constructor returns the next free address and allocates
    exactly one object. *)
Lemma from_pyannote_fresh pm tok s self s' :
  SegmentationModel_from_pyannote pm tok s = (inr self, s') \/
  EmbeddingModel_from_pyannote pm tok s = (inr self, s') ->
  self = length (heap s) /\ length (heap s') = S (length (heap s)).
Proof.
  rewrite SegmentationModel_from_pyannote_run, EmbeddingModel_from_pyannote_run.
  destruct _has_pyannote; [|by destruct __debug__; intros [|]].
  destruct (fst (hub_get_model pm (default TokNone tok) (world s)));
    [by intros [|]|].
  intros [[= <- <-]|[= <- <-]]; cbn; rewrite length_app; cbn; lia.
Qed.

(** The result of a call is a result of the wrapped model or leaves the
    state alone. *)
Lemma invoke_cases self w weights s :
  snd (invoke self w weights s) = s \/
  exists m kw, snd (invoke self w weights s) = after_call s m w kw.
Proof.
  rewrite invoke_run. unfold dangling, raise.
  destruct (heap s !! self) as [[c om]|]; [|by left]; cbn.
  destruct c, om as [m|], weights; cbn; rewrite ?call_model_run; cbn; eauto.
Qed.

(** One use extends the heap by at most one object. *)
Lemma exec_heap o s :
  exists h, heap (exec o s) = heap s ++ h /\ length h <= 1.
Proof.
  assert (Hsame : forall s', heap s' = heap s ->
            exists h, heap s' = heap s ++ h /\ length h <= 1).
  { intros s' ->. exists []. split; [by rewrite app_nil_r|cbn; lia]. }
  assert (Hsnoc : forall s' x, heap s' = heap s ++ [x] ->
            exists h, heap s' = heap s ++ h /\ length h <= 1).
  { intros s' x ->. exists [x]. split; [done|cbn; lia]. }
  destruct o as [pm tok|pm tok|c|self|self|self w weights]; cbn.
  - rewrite SegmentationModel_from_pyannote_run.
    destruct _has_pyannote; [|destruct __debug__; [by apply Hsame|by eapply Hsnoc]].
    destruct (fst (hub_get_model pm (default TokNone tok) (world s)));
      by eapply Hsnoc.
  - rewrite EmbeddingModel_from_pyannote_run.
    destruct _has_pyannote; [|destruct __debug__; [by apply Hsame|by eapply Hsnoc]].
    destruct (fst (hub_get_model pm (default TokNone tok) (world s)));
      by eapply Hsnoc.
  - by eapply Hsnoc.
  - apply Hsame. rewrite invoke_get_sample_rate_run. unfold dangling, raise.
    destruct (heap s !! self) as [[c om]|]; [|done]. by destruct c, om.
  - apply Hsame. rewrite invoke_get_duration_run. unfold dangling, raise.
    destruct (heap s !! self) as [[c om]|]; [|done]. by destruct c, om.
  - apply Hsame.
    destruct (invoke_cases self w weights s) as [->|(m & kw & ->)]; done.
Qed.

Lemma hub_lookups_snoc log c :
  hub_lookups (log ++ [c]) = hub_lookups log + (if is_hub_lookup c then 1 else 0).
Proof.
  unfold hub_lookups. rewrite List.filter_app, length_app. cbn.
  by destruct (is_hub_lookup c).
Qed.

Lemma model_calls_snoc log c :
  model_calls (log ++ [c]) = model_calls log + (if is_hub_lookup c then 0 else 1).
Proof.
  unfold model_calls. rewrite List.filter_app, length_app. cbn.
  by destruct (is_hub_lookup c).
Qed.

(** The log after one use: what was there, then at most one call. *)
Lemma exec_calls o s :
  calls (exec o s) = calls s \/
  (is_construction o = true /\ _has_pyannote = true /\
   exists pm tok, calls (exec o s) = calls s ++ [CallGetModel pm tok]) \/
  (is_call o = true /\
   exists m args kw, calls (exec o s) = calls s ++ [CallModel m args kw]).
Proof.
  destruct o as [pm tok|pm tok|c|self|self|self w weights]; cbn.
  - rewrite SegmentationModel_from_pyannote_run.
    destruct _has_pyannote; [|by left; destruct __debug__]. right; left.
    repeat split.
    destruct (fst (hub_get_model pm (default TokNone tok) (world s)));
      cbn; eauto.
  - rewrite EmbeddingModel_from_pyannote_run.
    destruct _has_pyannote; [|by left; destruct __debug__]. right; left.
    repeat split.
    destruct (fst (hub_get_model pm (default TokNone tok) (world s)));
      cbn; eauto.
  - by left.
  - left. rewrite invoke_get_sample_rate_run. unfold dangling, raise.
    destruct (heap s !! self) as [[c om]|]; [|done]. by destruct c, om.
  - left. rewrite invoke_get_duration_run. unfold dangling, raise.
    destruct (heap s !! self) as [[c om]|]; [|done]. by destruct c, om.
  - destruct (invoke_cases self w weights s) as [->|(m & kw & ->)];
      [by left|].
    right; right. split; [done|]. cbn. eauto.
Qed.

(** With pyannote installed a constructor always reaches the hub. *)
Lemma exec_construction_calls o s :
  is_construction o = true -> _has_pyannote = true ->
  exists pm tok, calls (exec o s) = calls s ++ [CallGetModel pm tok].
Proof.
  intros Ho Hhas.
  destruct o as [pm tok|pm tok|c|self|self|self w weights]; try done; cbn.
  - rewrite SegmentationModel_from_pyannote_run, Hhas.
    destruct (fst (hub_get_model pm (default TokNone tok) (world s)));
      cbn; eauto.
  - rewrite EmbeddingModel_from_pyannote_run, Hhas.
    destruct (fst (hub_get_model pm (default TokNone tok) (world s)));
      cbn; eauto.
Qed.

(** ** Sessions *)

Lemma exec_all_cons o l s : exec_all (o :: l) s = exec_all l (exec o s).
Proof. reflexivity. Qed.

Lemma uses_cons p o l :
  uses p (o :: l) = (if p o then 1 else 0) + uses p l.
Proof. unfold uses. cbn. by destruct (p o). Qed.

Lemma exec_all_heap l s :
  exists h, heap (exec_all l s) = heap s ++ h /\ length h <= length l.
Proof.
  revert s. induction l as [|o l IH]; intros s.
  - exists []. by rewrite app_nil_r.
  - rewrite exec_all_cons.
    destruct (IH (exec o s)) as (h2 & -> & Hlen2).
    destruct (exec_heap o s) as (h1 & -> & Hlen1).
    exists (h1 ++ h2). rewrite app_assoc, length_app. cbn. split; [done|lia].
Qed.

Lemma exec_all_lookup l s (a : addr) x :
  heap s !! a = Some x -> heap (exec_all l s) !! a = Some x.
Proof.
  intros Ha. destruct (exec_all_heap l s) as (h & -> & _).
  by apply lookup_app_l_Some.
Qed.

Lemma exec_hub_lookups o s :
  hub_lookups (calls (exec o s)) =
  hub_lookups (calls s) +
  (if is_construction o && _has_pyannote then 1 else 0).
Proof.
  destruct (is_construction o && _has_pyannote) eqn:Hc.
  - apply andb_prop in Hc as [Ho Hhas].
    destruct (exec_construction_calls o s Ho Hhas) as (pm & tok & ->).
    by rewrite hub_lookups_snoc.
  - destruct (exec_calls o s)
      as [->|[(Ho & Hhas & _)|(_ & m & args & kw & ->)]].
    + lia.
    + by rewrite Ho, Hhas in Hc.
    + rewrite hub_lookups_snoc. cbn. lia.
Qed.

Lemma exec_model_calls o s :
  model_calls (calls s) <= model_calls (calls (exec o s)) /\
  model_calls (calls (exec o s)) <=
    model_calls (calls s) + (if is_call o then 1 else 0).
Proof.
  destruct (exec_calls o s)
    as [->|[(_ & _ & pm & tok & ->)|(-> & m & args & kw & ->)]];
    rewrite ?model_calls_snoc; cbn; lia.
Qed.

Lemma exec_all_calls l s : exists d, calls (exec_all l s) = calls s ++ d.
Proof.
  revert s. induction l as [|o l IH]; intros s.
  - exists []. by rewrite app_nil_r.
  - rewrite exec_all_cons. destruct (IH (exec o s)) as (d & ->).
    destruct (exec_calls o s)
      as [->|[(_ & _ & pm & tok & ->)|(_ & m & args & kw & ->)]];
      rewrite <- ?app_assoc; eauto.
Qed.

(** ** What holds of every session *)

(** X1: whatever a client does with the module, in whatever order and
    whether the uses return or raise, the objects that exist stay as they
    are: the heap only grows, by at most one object a use. *)
Theorem session_keeps_objects l s :
  (exists h, heap (exec_all l s) = heap s ++ h /\ length h <= length l) /\
  (forall (a : addr) x,
      heap s !! a = Some x -> heap (exec_all l s) !! a = Some x).
Proof.
  split; [apply exec_all_heap|]. intros a x. apply exec_all_lookup.
Qed.

(** X2: an adapter returned by [SegmentationModel.from_pyannote] answers
    [get_sample_rate()] and [get_duration()] with the metadata of the model
    the hub returned at construction, after any session whatever. *)
Theorem segmentation_getters_stable pm tok s self s' :
  SegmentationModel_from_pyannote pm tok s = (inr self, s') ->
  exists m,
    fst (hub_get_model pm (default TokNone tok) (world s)) = inr m /\
    forall l,
      invoke_get_sample_rate self (exec_all l s')
        = (inr (sample_rate (audio m)), exec_all l s') /\
      invoke_get_duration self (exec_all l s')
        = (inr (duration (specifications m)), exec_all l s').
Proof.
  intros Hnew.
  destruct (SegmentationModel_from_pyannote_ok _ _ _ _ _ Hnew) as (m & Hhub & Hm).
  exists m. split; [done|]. intros l.
  rewrite invoke_get_sample_rate_run, invoke_get_duration_run.
  by rewrite (exec_all_lookup l _ _ _ Hm).
Qed.

(** X3: the hub is looked up once by every constructor call when pyannote
    is installed, whether the lookup succeeds or not, and by nothing else;
    when pyannote is missing it is never looked up. *)
Theorem session_hub_lookups l s :
  hub_lookups (calls (exec_all l s)) =
  hub_lookups (calls s) +
  (if _has_pyannote then uses is_construction l else 0).
Proof.
  revert s. induction l as [|o l IH]; intros s.
  - cbn. destruct _has_pyannote; unfold uses; cbn; lia.
  - rewrite exec_all_cons, IH, exec_hub_lookups, uses_cons.
    destruct _has_pyannote, (is_construction o); cbn; lia.
Qed.

(** X4: the log of outside calls is only ever extended, and the wrapped
    models are called at most once a call of an adapter: the constructors
    and the getters never run a model. *)
Theorem session_model_calls l s :
  (exists d, calls (exec_all l s) = calls s ++ d) /\
  model_calls (calls s) <= model_calls (calls (exec_all l s)) /\
  model_calls (calls (exec_all l s)) <= model_calls (calls s) + uses is_call l.
Proof.
  split; [apply exec_all_calls|].
  revert s. induction l as [|o l IH]; intros s.
  - unfold uses; cbn; lia.
  - rewrite exec_all_cons, uses_cons.
    destruct (IH (exec o s)) as [Hlo Hhi].
    destruct (exec_model_calls o s) as [Hlo1 Hhi1].
    destruct (is_call o); lia.
Qed.

(** ** The two constructors side by side *)

(** X5: the two constructors do the same thing up to the class of the
    object they make: same result, same world, same log, same [model]
    attributes.  Neither looks at what kind of model the hub returned. *)
Theorem constructors_agree pm tok s :
  fst (SegmentationModel_from_pyannote pm tok s)
    = fst (EmbeddingModel_from_pyannote pm tok s) /\
  world (snd (SegmentationModel_from_pyannote pm tok s))
    = world (snd (EmbeddingModel_from_pyannote pm tok s)) /\
  calls (snd (SegmentationModel_from_pyannote pm tok s))
    = calls (snd (EmbeddingModel_from_pyannote pm tok s)) /\
  ob_model <$> heap (snd (SegmentationModel_from_pyannote pm tok s))
    = ob_model <$> heap (snd (EmbeddingModel_from_pyannote pm tok s)).
Proof.
  rewrite SegmentationModel_from_pyannote_run, EmbeddingModel_from_pyannote_run.
  destruct _has_pyannote; [|destruct __debug__; cbn; by rewrite ?fmap_app].
  destruct (fst (hub_get_model pm (default TokNone tok) (world s))); cbn;
    by rewrite !fmap_app.
Qed.

(** X6: two adapters never share an object: a constructor that succeeds
    after another one, with any session in between, returns a different
    address and leaves the first adapter as it was. *)
Theorem adapters_never_alias pm1 tok1 pm2 tok2 l s a1 s1 a2 s2 :
  SegmentationModel_from_pyannote pm1 tok1 s = (inr a1, s1) \/
  EmbeddingModel_from_pyannote pm1 tok1 s = (inr a1, s1) ->
  SegmentationModel_from_pyannote pm2 tok2 (exec_all l s1) = (inr a2, s2) \/
  EmbeddingModel_from_pyannote pm2 tok2 (exec_all l s1) = (inr a2, s2) ->
  a1 <> a2 /\ heap s2 !! a1 = heap s1 !! a1.
Proof.
  intros H1 H2.
  destruct (from_pyannote_fresh _ _ _ _ _ H1) as [-> Hlen1].
  destruct (from_pyannote_fresh _ _ _ _ _ H2) as [-> Hlen2].
  destruct (exec_all_heap l s1) as (h & Hh & _).
  assert (Hlt : length (heap s) < length (heap s1)) by lia.
  destruct (lookup_lt_is_Some_2 _ _ Hlt) as [x Hx].
  split.
  - rewrite Hh, length_app. lia.
  - assert (Hx' := exec_all_lookup l _ _ _ Hx).
    transitivity (Some x); [|symmetry; exact Hx].
    clear Hlen2. revert H2.
    rewrite SegmentationModel_from_pyannote_run,
      EmbeddingModel_from_pyannote_run.
    destruct _has_pyannote; [|by destruct __debug__; intros [|]].
    destruct (fst (hub_get_model pm2 (default TokNone tok2)
                     (world (exec_all l s1)))); [by intros [|]|].
    intros [[= <-]|[= <-]]; cbn; apply lookup_app_l_Some; exact Hx'.
Qed.

(** ** Calls on the adapters the constructors return *)

(** X7: an adapter returned by [EmbeddingModel.from_pyannote] answers a
    call with what the model the hub returned answers when called with the
    waveform as its one positional argument and the weights as the keyword
    argument [weights] ([None] when the caller gave none); the model is
    called once and nothing else changes. *)
Theorem embedding_from_pyannote_call pm tok s self s' :
  EmbeddingModel_from_pyannote pm tok s = (inr self, s') ->
  exists m,
    fst (hub_get_model pm (default TokNone tok) (world s)) = inr m /\
    forall t w weights,
      heap t !! self = heap s' !! self ->
      invoke self w weights t =
        (fst (torch_call m [w] [("weights", default None weights)] (world t)),
         after_call t m w [("weights", default None weights)]).
Proof.
  intros Hnew.
  destruct (EmbeddingModel_from_pyannote_ok _ _ _ _ _ Hnew) as (m & Hhub & Hm).
  exists m. split; [done|]. intros t w weights Ht.
  unfold wraps in Hm. rewrite Hm in Ht.
  rewrite invoke_run, Ht. cbn.
  by destruct weights; rewrite call_model_run.
Qed.

(** X8: an adapter returned by [SegmentationModel.from_pyannote] answers a
    call with what the model the hub returned answers when called with the
    waveform alone, no keyword argument; a call with a second argument
    raises [TypeError] and the model is not called. *)
Theorem segmentation_from_pyannote_call pm tok s self s' :
  SegmentationModel_from_pyannote pm tok s = (inr self, s') ->
  exists m,
    fst (hub_get_model pm (default TokNone tok) (world s)) = inr m /\
    forall t w,
      heap t !! self = heap s' !! self ->
      invoke self w None t =
        (fst (torch_call m [w] [] (world t)), after_call t m w []) /\
      forall v, exists msg, invoke self w (Some v) t = (inl (TypeError msg), t).
Proof.
  intros Hnew.
  destruct (SegmentationModel_from_pyannote_ok _ _ _ _ _ Hnew) as (m & Hhub & Hm).
  exists m. split; [done|]. intros t w Ht.
  unfold wraps in Hm. rewrite Hm in Ht.
  split.
  - by rewrite invoke_run, Ht; cbn; rewrite call_model_run.
  - intros v. eexists. rewrite invoke_run, Ht. cbn. reflexivity.
Qed.

(** ** Without pyannote *)

Lemma exec_bare o s :
  pyannote_importable = false -> bare s ->
  bare (exec o s) /\ world (exec o s) = world s /\ calls (exec o s) = calls s.
Proof.
  intros Himp Hbare.
  assert (Hhas : _has_pyannote = false) by (unfold _has_pyannote; by rewrite Himp).
  assert (Hsame : forall s', s' = s ->
            bare s' /\ world s' = world s /\ calls s' = calls s)
    by (by intros s' ->).
  assert (Hnone : forall (self : addr) x, heap s !! self = Some x -> ob_model x = None).
  { intros self x Hx. unfold bare in Hbare.
    rewrite Forall_lookup in Hbare. by apply (Hbare self). }
  assert (Hnew : forall c, bare (after_new s c)).
  { intros c. unfold bare; cbn. apply Forall_app. split; [done|].
    by constructor. }
  destruct o as [pm tok|pm tok|c|self|self|self w weights]; cbn.
  - rewrite SegmentationModel_from_pyannote_run, Hhas.
    destruct __debug__; [by apply Hsame|]. cbn. split; [apply Hnew|done].
  - rewrite EmbeddingModel_from_pyannote_run, Hhas.
    destruct __debug__; [by apply Hsame|]. cbn. split; [apply Hnew|done].
  - rewrite instantiate_run; cbn. split; [apply Hnew|done].
  - apply Hsame. rewrite invoke_get_sample_rate_run. unfold dangling, raise.
    destruct (heap s !! self) as [[c om]|]; [|done]. by destruct c, om.
  - apply Hsame. rewrite invoke_get_duration_run. unfold dangling, raise.
    destruct (heap s !! self) as [[c om]|]; [|done]. by destruct c, om.
  - apply Hsame. rewrite invoke_run. unfold dangling, raise.
    destruct (heap s !! self) as [x|] eqn:Hx; [|done].
    rewrite (Hnone _ _ Hx). by destruct (ob_class x), weights.
Qed.

(** X9: when pyannote is missing and no adapter exists yet, no session
    brings one into being or reaches anything outside the module: after
    any uses, no object wraps a model, the world is untouched and the log
    of outside calls is what it was. *)
Theorem session_without_pyannote l s :
  pyannote_importable = false ->
  bare s ->
  bare (exec_all l s) /\
  world (exec_all l s) = world s /\
  calls (exec_all l s) = calls s.
Proof.
  intros Himp. revert s. induction l as [|o l IH]; intros s Hbare; [done|].
  rewrite exec_all_cons.
  destruct (exec_bare o s Himp Hbare) as (Hbare' & <- & <-).
  by apply IH.
Qed.

End SessionProperties.

(** * The properties of sessions on the small world *)

Lemma segmentation_getters_stable_witness :
  invoke_get_sample_rate (E := Demo.installed) 0%nat
      (exec_all Demo.session Demo.segmenter)
    = (inr 16000, exec_all Demo.session Demo.segmenter) /\
  invoke_get_duration (E := Demo.installed) 0%nat
      (exec_all Demo.session Demo.segmenter)
    = (inr 5%float, exec_all Demo.session Demo.segmenter).
Proof.
  destruct (segmentation_getters_stable (E := Demo.installed)
              "pyannote/segmentation" None (Demo.boot Demo.installed 0%nat)
              0%nat Demo.segmenter eq_refl)
    as (m & Hm & Hget).
  vm_compute in Hm. injection Hm as <-.
  apply (Hget Demo.session).
Defined.

Lemma adapters_never_alias_witness :
  0%nat <> 4%nat /\
  heap (snd (EmbeddingModel_from_pyannote (E := Demo.installed)
               "pyannote/embedding" (Some (TokStr "hf_token"))
               (exec_all Demo.session Demo.segmenter))) !! 0%nat
    = heap Demo.segmenter !! 0%nat.
Proof.
  apply (adapters_never_alias (E := Demo.installed)
           "pyannote/segmentation" None
           "pyannote/embedding" (Some (TokStr "hf_token"))
           Demo.session (Demo.boot Demo.installed 0%nat)
           0%nat Demo.segmenter 4%nat _).
  - left. reflexivity.
  - right. reflexivity.
Defined.

Lemma embedding_from_pyannote_call_witness :
  invoke (E := Demo.installed) 0%nat [1; 2] (Some (Some [1; 0])) Demo.embedder
    = (inr [7; 0],
       after_call (E := Demo.installed) Demo.embedder Demo.embedding [1; 2]
         [("weights", Some [1; 0])]).
Proof.
  destruct (embedding_from_pyannote_call (E := Demo.installed)
              "pyannote/embedding" (Some (TokStr "hf_token"))
              (Demo.boot Demo.installed 0%nat) 0%nat Demo.embedder eq_refl)
    as (m & Hm & Hcall).
  vm_compute in Hm. injection Hm as <-.
  apply (Hcall Demo.embedder [1; 2] (Some (Some [1; 0]))). reflexivity.
Defined.

Lemma segmentation_from_pyannote_call_witness :
  invoke (E := Demo.installed) 0%nat [1; 2] None Demo.segmenter
    = (inr [3; 6],
       after_call (E := Demo.installed) Demo.segmenter Demo.segmentation
         [1; 2] []) /\
  forall v, exists msg,
    invoke (E := Demo.installed) 0%nat [1; 2] (Some v) Demo.segmenter
      = (inl (TypeError msg), Demo.segmenter).
Proof.
  destruct (segmentation_from_pyannote_call (E := Demo.installed)
              "pyannote/segmentation" None
              (Demo.boot Demo.installed 0%nat) 0%nat Demo.segmenter eq_refl)
    as (m & Hm & Hcall).
  vm_compute in Hm. injection Hm as <-.
  apply (Hcall Demo.segmenter [1; 2]). reflexivity.
Defined.

Lemma session_without_pyannote_witness :
  bare (exec_all Demo.session_missing (Demo.boot Demo.missing 0%nat)) /\
  world (exec_all Demo.session_missing (Demo.boot Demo.missing 0%nat)) = 0%nat /\
  calls (exec_all Demo.session_missing (Demo.boot Demo.missing 0%nat)) = [].
Proof.
  apply (session_without_pyannote (E := Demo.missing)
           Demo.session_missing (Demo.boot Demo.missing 0%nat)).
  - reflexivity.
  - constructor.
Defined.
